(** * Arroyo console: the service contract and the schema wizard

    A shallow embedding of [arroyo-console/src/gen/api_connectweb.ts] (the
    [ApiGrpc] method catalog) and of the schema-definition step of the
    connection wizard ([JsonEditor], [RawStringEditor], [DefineSchema]).

    The React components are embedded as what they compute: the object each
    handler passes to [setState] is a function of the [state] prop, the
    [useState] cells of a component are fields of an explicit UI record, and
    what a component returns is a small tree of option lists. *)

From stdpp Require Import base strings list gmap.

#[local] Set Warnings "-register-all".
Local Open Scope string_scope.
Local Open Scope list_scope.

(** ** JavaScript values *)

(** A property of a JS object that may be missing ([undefined]), [null], or
    hold a value.  A key set to [undefined] and a key that is absent are
    identified: no handler below tells them apart. *)
Inductive js (A : Type) : Type :=
  | undefined : js A
  | null : js A
  | val (a : A) : js A.

Arguments undefined {A}.
Arguments null {A}.
Arguments val {A} a.

(** [x != null]: false on [null] and on [undefined], true otherwise. *)
Definition not_nullish {A} (x : js A) : bool :=
  match x with
  | val _ => true
  | _ => false
  end.

(** [a == b] on two strings.  [Array.prototype.find] is [List.find] below:
    the first element that passes the test, [None] standing for
    [undefined]. *)
Definition loose_eq (a b : string) : bool := bool_decide (a = b).

(** [a === b] on two strings, the comparison a [switch] makes. *)
Definition strict_eq (a b : string) : bool := bool_decide (a = b).

(** A JSON value, for the parts of an object that the wizard carries along
    without looking inside. *)
Inductive Json : Type :=
  | JNull
  | JBool (b : bool)
  | JNum (n : Z)
  | JStr (s : string)
  | JArr (items : list Json)
  | JObj (members : list (string * Json)).

(** Reading property [k] of an object held as a finite map. *)
Definition prop (o : gmap string Json) (k : string) : js Json :=
  match o !! k with
  | None => undefined
  | Some JNull => null
  | Some v => val v
  end.

(** ** The service contract: [ApiGrpc] *)

Module ApiGrpc.

(** [MethodKind] of [@bufbuild/protobuf]. *)
Inductive MethodKind : Set :=
  | Unary
  | ServerStreaming
  | ClientStreaming
  | BiDiStreaming.

#[global] Instance MethodKind_eq_dec : EqDecision MethodKind.
Proof. solve_decision. Defined.

(** One entry of [methods]; the message classes [I] and [O] are kept by
    name. *)
Record MethodInfo : Set := Method {
  name : string;
  I : string;
  O : string;
  kind : MethodKind;
}.

Definition typeName : string := "arroyo_api.ApiGrpc".

(** The [methods] object literal, in source order, each entry under its
    property key. *)
Definition methods : list (string * MethodInfo) := [
  ("createConnection",
    Method "CreateConnection" "CreateConnectionReq" "CreateConnectionResp" Unary);
  ("testConnection",
    Method "TestConnection" "CreateConnectionReq" "TestSourceMessage" Unary);
  ("getConnections",
    Method "GetConnections" "GetConnectionsReq" "GetConnectionsResp" Unary);
  ("deleteConnection",
    Method "DeleteConnection" "DeleteConnectionReq" "DeleteConnectionResp" Unary);
  ("createSource",
    Method "CreateSource" "CreateSourceReq" "CreateSourceResp" Unary);
  ("getSources",
    Method "GetSources" "GetSourcesReq" "GetSourcesResp" Unary);
  ("deleteSource",
    Method "DeleteSource" "DeleteSourceReq" "DeleteSourceResp" Unary);
  ("createSink",
    Method "CreateSink" "CreateSinkReq" "CreateSinkResp" Unary);
  ("getSinks",
    Method "GetSinks" "GetSinksReq" "GetSinksResp" Unary);
  ("deleteSink",
    Method "DeleteSink" "DeleteSinkReq" "DeleteSinkResp" Unary);
  ("getConfluentSchema",
    Method "GetConfluentSchema" "ConfluentSchemaReq" "ConfluentSchemaResp" Unary);
  ("getSourceMetadata",
    Method "GetSourceMetadata" "CreateSourceReq" "SourceMetadataResp" Unary);
  ("testSchema",
    Method "TestSchema" "CreateSourceReq" "TestSchemaResp" Unary);
  ("testSource",
    Method "TestSource" "CreateSourceReq" "TestSourceMessage" ServerStreaming);
  ("createPipeline",
    Method "CreatePipeline" "CreatePipelineReq" "CreatePipelineResp" Unary);
  ("graphForPipeline",
    Method "GraphForPipeline" "PipelineGraphReq" "PipelineGraphResp" Unary);
  ("getPipeline",
    Method "GetPipeline" "GetPipelineReq" "PipelineDef" Unary);
  ("createJob",
    Method "CreateJob" "CreateJobReq" "CreateJobResp" Unary);
  ("deleteJob",
    Method "DeleteJob" "DeleteJobReq" "DeleteJobResp" Unary);
  ("startPipeline",
    Method "StartPipeline" "CreatePipelineReq" "CreateJobResp" Unary);
  ("previewPipeline",
    Method "PreviewPipeline" "CreatePipelineReq" "CreateJobResp" Unary);
  ("getJobs",
    Method "GetJobs" "GetJobsReq" "GetJobsResp" Unary);
  ("getJobDetails",
    Method "GetJobDetails" "JobDetailsReq" "JobDetailsResp" Unary);
  ("getCheckpoints",
    Method "GetCheckpoints" "JobCheckpointsReq" "JobCheckpointsResp" Unary);
  ("getCheckpointDetail",
    Method "GetCheckpointDetail" "CheckpointDetailsReq" "CheckpointDetailsResp" Unary);
  ("getOperatorErrors",
    Method "GetOperatorErrors" "OperatorErrorsReq" "OperatorErrorsRes" Unary);
  ("getJobMetrics",
    Method "GetJobMetrics" "JobMetricsReq" "JobMetricsResp" Unary);
  ("updateJob",
    Method "UpdateJob" "UpdateJobReq" "UpdateJobResp" Unary);
  ("subscribeToOutput",
    Method "SubscribeToOutput" "GrpcOutputSubscription" "OutputData" ServerStreaming)
].

(** The operation names of the catalog, in order. *)
Definition operation_names : list string := (name ∘ snd) <$> methods.

(** The operations with a given invocation mode. *)
Definition with_kind (k : MethodKind) : list string :=
  (name ∘ snd) <$> filter (λ e, kind (snd e) = k) methods.

End ApiGrpc.

(** ** The schema of a connection table *)

(** Modelled from the spec: the field type tree of [gen/api-types], which is
    not part of the sources at hand (TypeRef: a primitive, or a composite
    made of fields or of an element type). *)
Inductive TypeRef : Type :=
  | primitive (p : string)
  | struct (members : list (string * TypeRef * bool))
  | array (elem : TypeRef).

Record FieldType : Type := { type : TypeRef }.

Record SourceField : Type := {
  fieldName : string;
  fieldType : FieldType;
  nullable : bool;
}.

(** The [definition] one-of, with the two shapes the wizard writes. *)
Inductive SchemaDefinition : Type :=
  | json_schema (text : string)
  | raw_schema (text : string).

(** [{ unstructured?, confluentSchemaRegistry? }]: [onFormatChange] writes
    this object without its [unstructured] key. *)
Record JsonFormat : Type := {
  unstructured : js bool;
  confluentSchemaRegistry : js bool;
}.

(** The [format] one-of: [{ json: {...} }] or [{ raw_string: {} }]. *)
Inductive Format : Type :=
  | json (j : JsonFormat)
  | raw_string.

Record NewlineFraming : Type := { maxLineLength : js N }.

Inductive FramingMethod : Type :=
  | newline (n : NewlineFraming).

Record Framing : Type := { method : FramingMethod }.

(** The [schema] object of the wizard state.  [schema_other] holds whatever
    further keys the object has; the handlers copy them with the spread. *)
Record ConnectionSchema : Type := {
  format : js Format;
  framing : js Framing;
  fields : js (list SourceField);
  definition : js SchemaDefinition;
  schema_other : gmap string Json;
}.

(** [{...s}]: spreading [null] or [undefined] contributes no key. *)
Definition spread (s : js ConnectionSchema) : ConnectionSchema :=
  match s with
  | val s => s
  | _ => {| format := undefined; framing := undefined; fields := undefined;
            definition := undefined; schema_other := ∅ |}
  end.

(** Modelled from the spec: [CreateConnectionState] is declared in
    [CreateConnection], which is not part of the sources at hand.  The draft
    holds an optional [connectionProfileId] and the [schema]; these are the
    two keys the handlers read, and [state_other] holds its further keys. *)
Record CreateConnectionState : Type := {
  connectionProfileId : js string;
  schema : js ConnectionSchema;
  state_other : gmap string Json;
}.

(** [{...state, schema: s}] *)
Definition with_schema (state : CreateConnectionState) (s : ConnectionSchema)
  : CreateConnectionState :=
  {| connectionProfileId := connectionProfileId state;
     schema := val s;
     state_other := state_other state |}.

(** Modelled from the spec: [Connector] and [ConnectionProfile] are declared
    in [lib/data_fetching], which is not part of the sources at hand.  A
    connector is a named integration; a profile is
    [{ id, connectorId, config }] with [config] an opaque map. *)
Module Connector.
Record t : Type := { id : string }.
End Connector.

Module ConnectionProfile.
Record t : Type := {
  id : string;
  connectorId : string;
  config : gmap string Json;
}.
End ConnectionProfile.

(** ** The wizard step *)

(** The option of the schema-type select of [JsonEditor]. *)
Module SchemaTypeOption.
Record t : Type := { name : string; value : string }.
End SchemaTypeOption.

(** The [useState] cells of [DefineSchema] and of the [JsonEditor] under
    it, next to the [state] prop they edit through [setState]; [nexts]
    counts the calls of the [next] prop. *)
Record UI : Type := {
  state : CreateConnectionState;
  selectedFormat : option string;
  selectedFraming : option string;
  selectedSchemaType : option SchemaTypeOption.t;
  nexts : nat;
}.

Definition setState (ui : UI) (s : CreateConnectionState) : UI :=
  {| state := s; selectedFormat := selectedFormat ui;
     selectedFraming := selectedFraming ui;
     selectedSchemaType := selectedSchemaType ui; nexts := nexts ui |}.

Definition setSelectedFormat (ui : UI) (v : string) : UI :=
  {| state := state ui; selectedFormat := Some v;
     selectedFraming := selectedFraming ui;
     selectedSchemaType := selectedSchemaType ui; nexts := nexts ui |}.

Definition setSelectedFraming (ui : UI) (v : string) : UI :=
  {| state := state ui; selectedFormat := selectedFormat ui;
     selectedFraming := Some v;
     selectedSchemaType := selectedSchemaType ui; nexts := nexts ui |}.

Definition setSelectedSchemaType (ui : UI) (o : option SchemaTypeOption.t) : UI :=
  {| state := state ui; selectedFormat := selectedFormat ui;
     selectedFraming := selectedFraming ui;
     selectedSchemaType := o; nexts := nexts ui |}.

Definition next (ui : UI) : UI :=
  {| state := state ui; selectedFormat := selectedFormat ui;
     selectedFraming := selectedFraming ui;
     selectedSchemaType := selectedSchemaType ui; nexts := S (nexts ui) |}.

(** *** [JsonEditor] *)

Module JsonEditor.

Definition json_option : SchemaTypeOption.t :=
  {| SchemaTypeOption.name := "JSON Schema"; SchemaTypeOption.value := "json" |}.
Definition unstructured_option : SchemaTypeOption.t :=
  {| SchemaTypeOption.name := "Unstructured JSON";
     SchemaTypeOption.value := "unstructured" |}.
Definition confluent_option : SchemaTypeOption.t :=
  {| SchemaTypeOption.name := "Confluent Schema Registry";
     SchemaTypeOption.value := "confluent" |}.

(** [connectionProfile]: [null] without a profile id, else what [find]
    returns; [None] stands for both [null] and [undefined], which the
    [!= null] test that follows does not tell apart. *)
Definition connectionProfile (connectionProfiles : list ConnectionProfile.t)
    (state : CreateConnectionState) : option ConnectionProfile.t :=
  match connectionProfileId state with
  | val pid =>
      List.find (λ c, loose_eq (ConnectionProfile.id c) pid) connectionProfiles
  | _ => None
  end.

(** The condition under which the Confluent option is pushed. *)
Definition registryAvailable (connector : Connector.t)
    (connectionProfiles : list ConnectionProfile.t)
    (state : CreateConnectionState) : bool :=
  loose_eq (Connector.id connector) "kafka" &&
  match connectionProfile connectionProfiles state with
  | Some p => not_nullish (prop (ConnectionProfile.config p) "schemaRegistry")
  | None => false
  end.

Definition schemaTypeOptions (connector : Connector.t)
    (connectionProfiles : list ConnectionProfile.t)
    (state : CreateConnectionState) : list SchemaTypeOption.t :=
  let schemaTypeOptions := [json_option; unstructured_option] in
  if registryAvailable connector connectionProfiles state
  then schemaTypeOptions ++ [confluent_option]
  else schemaTypeOptions.

(** What is shown under the select: the two editors that live in files of
    their own, or the text with its Continue button. *)
Inductive Editor : Set :=
  | JsonSchemaEditor
  | ConfluentSchemaEditor
  | UnstructuredText.

Definition editor (ui : UI) : option Editor :=
  match selectedSchemaType ui with
  | None => None
  | Some o =>
      let v := SchemaTypeOption.value o in
      if strict_eq v "json" then Some JsonSchemaEditor
      else if strict_eq v "confluent" then Some ConfluentSchemaEditor
      else if strict_eq v "unstructured" then Some UnstructuredText
      else None
  end.

Definition onChange (connector : Connector.t)
    (connectionProfiles : list ConnectionProfile.t)
    (target_value : string) (ui : UI) : UI :=
  let ui' :=
    setSelectedSchemaType ui
      (List.find (λ o, loose_eq (SchemaTypeOption.value o) target_value)
         (schemaTypeOptions connector connectionProfiles (state ui))) in
  let state := state ui in
  let schema := spread (schema state) in
  if strict_eq target_value "json" then
    setState ui' (with_schema state
      {| format := val (json {| unstructured := val false;
                                confluentSchemaRegistry := val false |});
         framing := framing schema;
         fields := val [];
         definition := val (json_schema "");
         schema_other := schema_other schema |})
  else if strict_eq target_value "confluent" then
    setState ui' (with_schema state
      {| format := val (json {| unstructured := val false;
                                confluentSchemaRegistry := val true |});
         framing := framing schema;
         fields := val [];
         definition := null;
         schema_other := schema_other schema |})
  else if strict_eq target_value "unstructured" then
    setState ui' (with_schema state
      {| format := val (json {| unstructured := val true;
                                confluentSchemaRegistry := val false |});
         framing := framing schema;
         fields := val [];
         definition := val (raw_schema "value");
         schema_other := schema_other schema |})
  else ui'.

(** What the component returns: the select with its options and value,
    and the editor. *)
Record View : Type := {
  options : list SchemaTypeOption.t;
  selected : option string;
  shown : option Editor;
}.

Definition render (connector : Connector.t)
    (connectionProfiles : list ConnectionProfile.t) (ui : UI) : View :=
  {| options := schemaTypeOptions connector connectionProfiles (state ui);
     selected := SchemaTypeOption.value <$> selectedSchemaType ui;
     shown := editor ui |}.

End JsonEditor.

(** *** [RawStringEditor] *)

Module RawStringEditor.

Definition submit (ui : UI) : UI :=
  let state := state ui in
  let schema := spread (schema state) in
  next (setState ui (with_schema state
    {| format := val raw_string;
       framing := framing schema;
       fields := val [ {| fieldName := "value";
                          fieldType := {| type := primitive "string" |};
                          nullable := true |} ];
       definition := val (raw_schema "value");
       schema_other := schema_other schema |})).

End RawStringEditor.

(** *** [DefineSchema] *)

(** The element a data format brings with it. *)
Inductive FormatEl : Set :=
  | JsonEditorEl
  | RawStringEditorEl.

Module DataFormatOption.
Record t : Type := {
  name : string;
  value : string;
  el : option FormatEl;
  disabled : option bool;
}.
End DataFormatOption.

Module FramingOption.
(** No entry of [framingMethods] sets [el] or [disabled]. *)
Record t : Type := {
  name : string;
  value : js Framing;
}.
End FramingOption.

Module DefineSchema.

(** Modelled from the spec: what [useConnectionProfiles] of
    [lib/data_fetching] hands back, the profile list once it is there and
    the flag of the loading state. *)
Record Profiles : Type := {
  connectionProfiles : js (list ConnectionProfile.t);
  connectionProfilesLoading : bool;
}.

Definition formats : list DataFormatOption.t := [
  {| DataFormatOption.name := "JSON"; DataFormatOption.value := "json";
     DataFormatOption.el := Some JsonEditorEl;
     DataFormatOption.disabled := None |};
  {| DataFormatOption.name := "Raw String"; DataFormatOption.value := "raw_string";
     DataFormatOption.el := Some RawStringEditorEl;
     DataFormatOption.disabled := None |};
  {| DataFormatOption.name := "Protobuf (coming soon)";
     DataFormatOption.value := "protobuf";
     DataFormatOption.el := None;
     DataFormatOption.disabled := Some true |};
  {| DataFormatOption.name := "Avro (coming soon)";
     DataFormatOption.value := "avro";
     DataFormatOption.el := None;
     DataFormatOption.disabled := Some true |}
].

Definition framingMethods : list FramingOption.t := [
  {| FramingOption.name := "None"; FramingOption.value := undefined |};
  {| FramingOption.name := "Newline";
     FramingOption.value :=
       val {| method := newline {| maxLineLength := null |} |} |}
].

Definition onFormatChange (target_value : string) (ui : UI) : UI :=
  let state := state ui in
  let schema := spread (schema state) in
  if loose_eq target_value "json" then
    setState (setSelectedFormat ui "json") (with_schema state
      {| format := val (json {| unstructured := undefined;
                                confluentSchemaRegistry := val false |});
         framing := framing schema;
         fields := val [];
         definition := definition schema;
         schema_other := schema_other schema |})
  else
    setState (setSelectedFormat ui "raw_string") (with_schema state
      {| format := val raw_string;
         framing := framing schema;
         fields := val [];
         definition := definition schema;
         schema_other := schema_other schema |}).

(** [framingMethods.find(...)!.value] reads a property of [undefined] when
    no entry has the name: the handler throws, which is [None] here. *)
Definition onFramingChange (target_value : string) (ui : UI) : option UI :=
  let state := state ui in
  let schema := spread (schema state) in
  match List.find (λ f, loose_eq (FramingOption.name f) target_value)
          framingMethods with
  | Some f =>
      Some (setState (setSelectedFraming ui target_value) (with_schema state
        {| format := format schema;
           framing := FramingOption.value f;
           fields := val [];
           definition := definition schema;
           schema_other := schema_other schema |}))
  | None => None
  end.

(** The element under the two selects. *)
Inductive ElView : Type :=
  | JsonEditorView (v : JsonEditor.View)
  | RawStringEditorView.

(** What the component returns: the empty fragment, or the framing
    select, the format select and the element of the selected format.
    [Crashed] is a render that throws: [JsonEditor] is handed
    [connectionProfiles!] and calls [find] on it when the state names a
    profile. *)
Inductive Rendered : Type :=
  | Fragment
  | Form (framingSelect : list FramingOption.t)
         (formatSelect : list DataFormatOption.t)
         (shown : option ElView)
  | Crashed.

Definition render (connector : Connector.t) (profiles : Profiles) (ui : UI)
  : Rendered :=
  if connectionProfilesLoading profiles then Fragment
  else
    match selectedFormat ui with
    | None => Form framingMethods formats None
    | Some sel =>
        match List.find (λ f, strict_eq (DataFormatOption.value f) sel) formats with
        | None => Form framingMethods formats None
        | Some f =>
            match DataFormatOption.el f with
            | None => Form framingMethods formats None
            | Some RawStringEditorEl =>
                Form framingMethods formats (Some RawStringEditorView)
            | Some JsonEditorEl =>
                match connectionProfiles profiles with
                | val ps =>
                    Form framingMethods formats
                      (Some (JsonEditorView (JsonEditor.render connector ps ui)))
                | _ =>
                    if not_nullish (connectionProfileId (state ui)) then Crashed
                    else
                      Form framingMethods formats
                        (Some (JsonEditorView (JsonEditor.render connector [] ui)))
                end
            end
        end
    end.

(** **** What the rendered step offers *)

Definition is_disabled (f : DataFormatOption.t) : bool :=
  match DataFormatOption.disabled f with
  | Some true => true
  | _ => false
  end.

(** The data formats that can be picked: the entries of the format select
    that are not disabled. *)
Definition offeredFormats (r : Rendered) : list string :=
  match r with
  | Form _ fs _ =>
      DataFormatOption.value <$> List.filter (λ f, negb (is_disabled f)) fs
  | _ => []
  end.

Definition offeredFramings (r : Rendered) : list string :=
  match r with
  | Form fs _ _ => FramingOption.name <$> fs
  | _ => []
  end.

Definition offeredSchemaTypes (r : Rendered) : list string :=
  match r with
  | Form _ _ (Some (JsonEditorView v)) =>
      SchemaTypeOption.value <$> JsonEditor.options v
  | _ => []
  end.

(** The user actions whose handlers are in this file.  [Continue] is the
    button of the raw-string editor or of the unstructured-JSON text. *)
Inductive Event : Type :=
  | FramingChange (target_value : string)
  | FormatChange (target_value : string)
  | SchemaTypeChange (target_value : string)
  | Continue.

Definition mem (v : string) (l : list string) : bool := bool_decide (v ∈ l).

(** An action is possible when the rendered step carries its control. *)
Definition enabled (r : Rendered) (ev : Event) : bool :=
  match ev with
  | FramingChange v => mem v (offeredFramings r)
  | FormatChange v => mem v (offeredFormats r)
  | SchemaTypeChange v => mem v (offeredSchemaTypes r)
  | Continue =>
      match r with
      | Form _ _ (Some RawStringEditorView) => true
      | Form _ _ (Some (JsonEditorView v)) =>
          match JsonEditor.shown v with
          | Some JsonEditor.UnstructuredText => true
          | _ => false
          end
      | _ => false
      end
  end.

(** The profile list [JsonEditor] works with once it is on screen. *)
Definition profileList (profiles : Profiles) : list ConnectionProfile.t :=
  match connectionProfiles profiles with
  | val ps => ps
  | _ => []
  end.

(** [JsonEditor] is mounted only while the selected format is [json]; its
    [selectedSchemaType] cell is gone when another element takes its
    place. *)
Definition unmount (ui : UI) : UI :=
  match selectedFormat ui with
  | Some "json" => ui
  | _ => setSelectedSchemaType ui None
  end.

Definition handle (connector : Connector.t) (profiles : Profiles)
    (ev : Event) (ui : UI) : option UI :=
  match ev with
  | FramingChange v => onFramingChange v ui
  | FormatChange v => Some (unmount (onFormatChange v ui))
  | SchemaTypeChange v =>
      Some (JsonEditor.onChange connector (profileList profiles) v ui)
  | Continue =>
      match selectedFormat ui with
      | Some "json" => Some (next ui)
      | _ => Some (RawStringEditor.submit ui)
      end
  end.

(** One user action on the step as rendered. *)
Definition step (connector : Connector.t) (profiles : Profiles)
    (ui : UI) (ev : Event) : option UI :=
  if enabled (render connector profiles ui) ev
  then handle connector profiles ev ui
  else None.

(** A sequence of user actions, each on the step as the one before left
    it. *)
Fixpoint run (connector : Connector.t) (profiles : Profiles)
    (ui : UI) (evs : list Event) : option UI :=
  match evs with
  | [] => Some ui
  | ev :: evs' =>
      match step connector profiles ui ev with
      | Some ui' => run connector profiles ui' evs'
      | None => None
      end
  end.

End DefineSchema.

(** ** Reading a draft *)

(** The schema of the draft as the handlers see it through the spread. *)
Definition draftSchema (ui : UI) : ConnectionSchema := spread (schema (state ui)).

(** The definition that goes with a format: the registry resolves its own,
    unstructured JSON and raw strings share the single [value] column, and
    a JSON schema starts from the empty text. *)
Definition canonicalDefinition (f : Format) : js SchemaDefinition :=
  match f with
  | raw_string => val (raw_schema "value")
  | json j =>
      match confluentSchemaRegistry j, unstructured j with
      | val true, _ => null
      | _, val true => val (raw_schema "value")
      | _, _ => val (json_schema "")
      end
  end.

(** A profile is found under an id when it is the first of the list to
    carry it. *)
Definition foundProfile (pid : string) (connectionProfiles : list ConnectionProfile.t)
    (p : ConnectionProfile.t) : Prop :=
  ∃ before after,
    connectionProfiles = before ++ p :: after ∧
    ConnectionProfile.id p = pid ∧
    Forall (λ q, ConnectionProfile.id q ≠ pid) before.

(** The profile context in which the registry can be used: the connector is
    kafka, the state names a profile, the profile is found in the list, and
    its config has a non-null [schemaRegistry]. *)
Definition registryCapable (connector : Connector.t)
    (connectionProfiles : list ConnectionProfile.t)
    (state : CreateConnectionState) : Prop :=
  Connector.id connector = "kafka" ∧
  ∃ pid p,
    connectionProfileId state = val pid ∧
    foundProfile pid connectionProfiles p ∧
    ∃ v, ConnectionProfile.config p !! "schemaRegistry" = Some v ∧ v ≠ JNull.

(** Two wizards agree outside the schema when the rest of the draft is the
    same. *)
Definition sameOutsideSchema (a b : UI) : Prop :=
  connectionProfileId (state a) = connectionProfileId (state b) ∧
  state_other (state a) = state_other (state b).

(** A selection in one of the two format selects: the data format of
    [DefineSchema], or one of the three schema types of [JsonEditor]. *)
Inductive SchemaType : Set :=
  | JsonSchemaType
  | UnstructuredType
  | ConfluentType.

Definition schemaTypeValue (t : SchemaType) : string :=
  match t with
  | JsonSchemaType => "json"
  | UnstructuredType => "unstructured"
  | ConfluentType => "confluent"
  end.

Definition schemaTypeFormat (t : SchemaType) : Format :=
  match t with
  | JsonSchemaType =>
      json {| unstructured := val false; confluentSchemaRegistry := val false |}
  | UnstructuredType =>
      json {| unstructured := val true; confluentSchemaRegistry := val false |}
  | ConfluentType =>
      json {| unstructured := val false; confluentSchemaRegistry := val true |}
  end.

Inductive Selection : Type :=
  | SelectDataFormat (target_value : string)
  | SelectSchemaType (t : SchemaType).

Definition select (connector : Connector.t)
    (connectionProfiles : list ConnectionProfile.t)
    (sel : Selection) (ui : UI) : UI :=
  match sel with
  | SelectDataFormat v => DefineSchema.onFormatChange v ui
  | SelectSchemaType t =>
      JsonEditor.onChange connector connectionProfiles (schemaTypeValue t) ui
  end.

Definition selectAll (connector : Connector.t)
    (connectionProfiles : list ConnectionProfile.t)
    (sels : list Selection) (ui : UI) : UI :=
  fold_left (λ u sel, select connector connectionProfiles sel u) sels ui.

(** ** A wizard session to run things on *)

Module Session.

Definition kafka : Connector.t := {| Connector.id := "kafka" |}.

Definition withRegistry : ConnectionProfile.t :=
  {| ConnectionProfile.id := "p1";
     ConnectionProfile.connectorId := "kafka";
     ConnectionProfile.config :=
       {[ "bootstrapServers" := JStr "broker:9092";
          "schemaRegistry" := JObj [("endpoint", JStr "http://registry:8081")] ]} |}.

Definition loaded : DefineSchema.Profiles :=
  {| DefineSchema.connectionProfiles := val [withRegistry];
     DefineSchema.connectionProfilesLoading := false |}.

Definition plain : ConnectionProfile.t :=
  {| ConnectionProfile.id := "p2";
     ConnectionProfile.connectorId := "kafka";
     ConnectionProfile.config := {[ "bootstrapServers" := JStr "broker:9092" ]} |}.

Definition loading : DefineSchema.Profiles :=
  {| DefineSchema.connectionProfiles := undefined;
     DefineSchema.connectionProfilesLoading := true |}.

(** The step as it opens: a profile picked, no schema yet. *)
Definition opened : UI :=
  {| state := {| connectionProfileId := val "p1";
                 schema := null;
                 state_other := {[ "name" := JStr "events" ]} |};
     selectedFormat := None;
     selectedFraming := None;
     selectedSchemaType := None;
     nexts := 0 |}.

(** A draft that went down the JSON-schema branch and had fields
    inferred. *)
Definition explored : UI :=
  {| state := {| connectionProfileId := val "p1";
                 schema := val {|
                   format := val (schemaTypeFormat JsonSchemaType);
                   framing := undefined;
                   fields := val [ {| fieldName := "id";
                                      fieldType := {| type := primitive "int" |};
                                      nullable := false |} ];
                   definition := val (json_schema "{}");
                   schema_other := ∅ |};
                 state_other := {[ "name" := JStr "events" ]} |};
     selectedFormat := Some "json";
     selectedFraming := None;
     selectedSchemaType := Some JsonEditor.json_option;
     nexts := 0 |}.

(** The Newline entry of the framing select. *)
Definition newlineOption : FramingOption.t :=
  {| FramingOption.name := "Newline";
     FramingOption.value :=
       val {| method := newline {| maxLineLength := null |} |} |}.

(** The framing the scenario asks for, with a line limit of 128. *)
Definition newline128 : Framing :=
  {| method := newline {| maxLineLength := val 128%N |} |}.

End Session.

(** ** Further vocabulary for the properties of the code *)

(** A name with its first letter in lower case, as the catalog derives the
    property key of an operation from its name. *)
Definition lowerFirst (s : string) : string :=
  match s with
  | EmptyString => EmptyString
  | String c rest =>
      let n := Ascii.nat_of_ascii c in
      String (if Nat.leb 65 n && Nat.leb n 90
              then Ascii.ascii_of_nat (n + 32) else c) rest
  end.








(** ** The service contract *)

(** C8: every operation name of the catalog is unique; the server-streaming
    operations are exactly TestSource and SubscribeToOutput; every other
    operation is unary. *)
Theorem catalog_names_unique_two_streaming :
  NoDup ApiGrpc.operation_names ∧
  ApiGrpc.with_kind ApiGrpc.ServerStreaming = ["TestSource"; "SubscribeToOutput"] ∧
  Forall (λ e,
    let m := snd e in
    if bool_decide (ApiGrpc.name m ∈ ["TestSource"; "SubscribeToOutput"])
    then ApiGrpc.kind m = ApiGrpc.ServerStreaming
    else ApiGrpc.kind m = ApiGrpc.Unary) ApiGrpc.methods.
Proof.
  split; [| split].
  - apply (bool_decide_unpack _). by vm_compute.
  - by vm_compute.
  - unfold ApiGrpc.methods. repeat (constructor; [by vm_compute |]). constructor.
Qed.

(** ** The schema types on offer *)

Lemma loose_eq_true a b : loose_eq a b = true ↔ a = b.
Proof. unfold loose_eq. apply bool_decide_eq_true. Qed.

Lemma find_by_id_found pid (connectionProfiles : list ConnectionProfile.t) p :
  List.find (λ c, loose_eq (ConnectionProfile.id c) pid) connectionProfiles = Some p
  ↔ foundProfile pid connectionProfiles p.
Proof.
  induction connectionProfiles as [| q rest IH]; simpl.
  - split; [done |]. intros (before & after & Heq & _). by destruct before.
  - destruct (loose_eq (ConnectionProfile.id q) pid) eqn:Hq.
    + apply loose_eq_true in Hq. split.
      * intros [= ->]. by exists [], rest.
      * intros (before & after & Heq & Hid & Hbefore).
        destruct before as [| b before]; simpl in Heq; injection Heq as -> ->.
        -- done.
        -- by inversion Hbefore.
    + assert (ConnectionProfile.id q ≠ pid) as Hne.
      { intros Heq. apply loose_eq_true in Heq. congruence. }
      rewrite IH. split.
      * intros (before & after & -> & Hid & Hbefore).
        exists (q :: before), after.
        split; [done |]. split; [done |]. by constructor.
      * intros (before & after & Heq & Hid & Hbefore).
        destruct before as [| b before]; simpl in Heq; injection Heq as -> ->.
        -- done.
        -- inversion Hbefore; subst. by exists before, after.
Qed.

Lemma prop_not_nullish (o : gmap string Json) k :
  not_nullish (prop o k) = true ↔ ∃ v, o !! k = Some v ∧ v ≠ JNull.
Proof.
  unfold prop. destruct (o !! k) as [v |].
  - split.
    + intros Hv. exists v. split; [done |]. by intros ->.
    + intros (v' & [= <-] & Hv). by destruct v.
  - split; [done |]. by intros (v & Hv & _).
Qed.

Lemma registryAvailable_capable connector connectionProfiles state :
  JsonEditor.registryAvailable connector connectionProfiles state = true
  ↔ registryCapable connector connectionProfiles state.
Proof.
  unfold JsonEditor.registryAvailable, JsonEditor.connectionProfile, registryCapable.
  rewrite andb_true_iff, loose_eq_true.
  split.
  - intros [Hk Hp]. split; [done |].
    destruct (connectionProfileId state) as [| | pid]; try done.
    destruct (List.find _ _) as [p |] eqn:Hfind; [| done].
    exists pid, p. split; [done |]. split.
    + by apply find_by_id_found.
    + by apply prop_not_nullish.
  - intros [Hk (pid & p & -> & Hfound & Hreg)]. split; [done |].
    apply find_by_id_found in Hfound. rewrite Hfound.
    by apply prop_not_nullish.
Qed.

(** C2: the Confluent Schema Registry option is among the schema-type
    options exactly when the connector id is kafka, the state names a
    connection profile that is found in the profile list, and that
    profile's config has a non-null schemaRegistry entry; in that case the
    options are JSON Schema, Unstructured JSON and Confluent, and in every
    other case they are exactly JSON Schema and Unstructured JSON. *)
Theorem confluent_option_iff_registry_capable
    (connector : Connector.t) (connectionProfiles : list ConnectionProfile.t)
    (state : CreateConnectionState) :
  let offered := JsonEditor.schemaTypeOptions connector connectionProfiles state in
  let capable := registryCapable connector connectionProfiles state in
  (JsonEditor.confluent_option ∈ offered ↔ capable) ∧
  (capable →
     offered = [JsonEditor.json_option; JsonEditor.unstructured_option;
                JsonEditor.confluent_option]) ∧
  (¬ capable →
     offered = [JsonEditor.json_option; JsonEditor.unstructured_option]).
Proof.
  cbv zeta. unfold JsonEditor.schemaTypeOptions.
  destruct (JsonEditor.registryAvailable connector connectionProfiles state) eqn:Hav.
  - apply registryAvailable_capable in Hav. simpl. split; [| split]; try done.
    split; [done |]. intros _. set_solver.
  - assert (¬ registryCapable connector connectionProfiles state) as Hno.
    { intros Hc. apply registryAvailable_capable in Hc. congruence. }
    split; [| split]; try done.
    split; [| done]. intros Hin.
    apply elem_of_cons in Hin as [Heq | Hin]; [discriminate |].
    apply elem_of_cons in Hin as [Heq | Hin]; [discriminate |].
    by apply elem_of_nil in Hin.
Qed.

(** A kafka profile with a registry brings the Confluent option; one without
    a registry, another connector, or no profile at all does not. *)
Example registry_scenarios :
  let st pid := {| connectionProfileId := pid; schema := null; state_other := ∅ |} in
  let ps := [Session.withRegistry; Session.plain] in
  let values c pid :=
    SchemaTypeOption.value <$> JsonEditor.schemaTypeOptions c ps (st pid) in
  values Session.kafka (val "p1") = ["json"; "unstructured"; "confluent"] ∧
  values Session.kafka (val "p2") = ["json"; "unstructured"] ∧
  values Session.kafka (val "p3") = ["json"; "unstructured"] ∧
  values Session.kafka null = ["json"; "unstructured"] ∧
  values {| Connector.id := "kinesis" |} (val "p1") = ["json"; "unstructured"].
Proof. by vm_compute. Qed.

(** ** The transitions of the draft *)

(** C6: choosing the JSON Schema type gives a draft whose format is json
    with unstructured and confluentSchemaRegistry both false, whose
    definition is a JSON schema with empty text, and whose fields are
    empty. *)
Theorem json_schema_type_resets_draft
    (connector : Connector.t) (connectionProfiles : list ConnectionProfile.t)
    (ui : UI) :
  ∃ s,
    schema (state (JsonEditor.onChange connector connectionProfiles "json" ui)) = val s ∧
    format s = val (json {| unstructured := val false;
                            confluentSchemaRegistry := val false |}) ∧
    definition s = val (json_schema "") ∧
    fields s = val [].
Proof. eexists. by repeat split. Qed.

(** C7: choosing the Confluent type gives a draft whose format is json with
    confluentSchemaRegistry true, whose definition is null, and whose
    fields are empty. *)
Theorem confluent_type_resets_draft
    (connector : Connector.t) (connectionProfiles : list ConnectionProfile.t)
    (ui : UI) :
  ∃ s,
    schema (state (JsonEditor.onChange connector connectionProfiles "confluent" ui)) = val s ∧
    format s = val (json {| unstructured := val false;
                            confluentSchemaRegistry := val true |}) ∧
    definition s = null ∧
    fields s = val [].
Proof. eexists. by repeat split. Qed.

(** C4: pressing Continue in the raw-string editor gives, from any draft, a
    schema with exactly one field, named value, a primitive string,
    nullable, with definition raw_schema value and format raw_string. *)
Theorem raw_string_submit_single_value_field (ui : UI) :
  ∃ s,
    schema (state (RawStringEditor.submit ui)) = val s ∧
    fields s = val [ {| fieldName := "value";
                        fieldType := {| type := primitive "string" |};
                        nullable := true |} ] ∧
    definition s = val (raw_schema "value") ∧
    format s = val raw_string.
Proof. eexists. by repeat split. Qed.

Lemma framing_option_found (f : FramingOption.t) :
  f ∈ DefineSchema.framingMethods →
  List.find (λ g, loose_eq (FramingOption.name g) (FramingOption.name f))
    DefineSchema.framingMethods = Some f.
Proof.
  unfold DefineSchema.framingMethods. intros Hin.
  apply elem_of_cons in Hin as [-> | Hin]; [done |].
  apply elem_of_cons in Hin as [-> | Hin]; [done |].
  by apply elem_of_nil in Hin.
Qed.

(** C5: for every draft and every framing the select offers, the framing
    change goes through, leaves the fields empty whatever they were, and
    applied a second time gives the same wizard as applied once. *)
Theorem framing_change_resets_fields_idempotent (f : FramingOption.t) (ui : UI) :
  f ∈ DefineSchema.framingMethods →
  ∃ ui' s,
    DefineSchema.onFramingChange (FramingOption.name f) ui = Some ui' ∧
    schema (state ui') = val s ∧
    framing s = FramingOption.value f ∧
    fields s = val [] ∧
    DefineSchema.onFramingChange (FramingOption.name f) ui' = Some ui'.
Proof.
  intros Hin. apply framing_option_found in Hin.
  unfold DefineSchema.onFramingChange. rewrite Hin.
  eexists _, _. by repeat split.
Qed.

Lemma newlineOption_offered : Session.newlineOption ∈ DefineSchema.framingMethods.
Proof.
  unfold DefineSchema.framingMethods.
  apply elem_of_cons; right; apply elem_of_cons; by left.
Defined.

Lemma framing_change_resets_fields_idempotent_witness :
  Session.newlineOption ∈ DefineSchema.framingMethods ∧
  ∃ ui' s,
    DefineSchema.onFramingChange "Newline" Session.explored = Some ui' ∧
    schema (state ui') = val s ∧
    framing s = val {| method := newline {| maxLineLength := null |} |} ∧
    fields s = val [] ∧
    DefineSchema.onFramingChange "Newline" ui' = Some ui'.
Proof.
  split; [exact newlineOption_offered |].
  apply (framing_change_resets_fields_idempotent
           Session.newlineOption Session.explored newlineOption_offered).
Defined.

(** ** What each transition leaves alone *)

(** C10: a framing change leaves the format and the definition of the
    schema as they were; a data-format change, a schema-type change and the
    raw-string Continue leave the framing as it was; each of them leaves the
    further keys of the schema and everything of the draft outside the
    schema as they were. *)
Theorem transitions_leave_unnamed_parts
    (connector : Connector.t) (connectionProfiles : list ConnectionProfile.t)
    (f : FramingOption.t) (target_value : string) (ui : UI) :
  f ∈ DefineSchema.framingMethods →
  (∃ ui',
     DefineSchema.onFramingChange (FramingOption.name f) ui = Some ui' ∧
     format (draftSchema ui') = format (draftSchema ui) ∧
     definition (draftSchema ui') = definition (draftSchema ui) ∧
     schema_other (draftSchema ui') = schema_other (draftSchema ui) ∧
     sameOutsideSchema ui ui') ∧
  (let ui' := DefineSchema.onFormatChange target_value ui in
   framing (draftSchema ui') = framing (draftSchema ui) ∧
   definition (draftSchema ui') = definition (draftSchema ui) ∧
   schema_other (draftSchema ui') = schema_other (draftSchema ui) ∧
   sameOutsideSchema ui ui') ∧
  (let ui' := JsonEditor.onChange connector connectionProfiles target_value ui in
   framing (draftSchema ui') = framing (draftSchema ui) ∧
   schema_other (draftSchema ui') = schema_other (draftSchema ui) ∧
   sameOutsideSchema ui ui') ∧
  (let ui' := RawStringEditor.submit ui in
   framing (draftSchema ui') = framing (draftSchema ui) ∧
   schema_other (draftSchema ui') = schema_other (draftSchema ui) ∧
   sameOutsideSchema ui ui').
Proof.
  intros Hin. apply framing_option_found in Hin.
  split; [| split; [| split]].
  - unfold DefineSchema.onFramingChange. rewrite Hin.
    eexists. by repeat split.
  - unfold DefineSchema.onFormatChange.
    destruct (loose_eq target_value "json"); by repeat split.
  - unfold JsonEditor.onChange.
    destruct (strict_eq target_value "json"); [by repeat split |].
    destruct (strict_eq target_value "confluent"); [by repeat split |].
    destruct (strict_eq target_value "unstructured"); by repeat split.
  - by repeat split.
Qed.

Lemma transitions_leave_unnamed_parts_witness :
  Session.newlineOption ∈ DefineSchema.framingMethods ∧
  (∃ ui',
     DefineSchema.onFramingChange "Newline" Session.explored = Some ui' ∧
     format (draftSchema ui') = format (draftSchema Session.explored) ∧
     definition (draftSchema ui') = val (json_schema "{}") ∧
     sameOutsideSchema Session.explored ui') ∧
  framing (draftSchema (DefineSchema.onFormatChange "raw_string" Session.explored))
    = undefined.
Proof.
  split; [exact newlineOption_offered |].
  destruct (transitions_leave_unnamed_parts Session.kafka [Session.withRegistry]
              Session.newlineOption "raw_string" Session.explored
              newlineOption_offered)
    as [(ui' & Hstep & Hformat & Hdef & _ & Hout) [(Hframing & _) _]].
  split; [by exists ui' | exact Hframing].
Defined.

(** ** Scenario: newline framing, then a JSON schema *)

(** C3, as the code has it: the Newline entry of the framing select carries
    no line limit, so choosing Newline and then the JSON Schema type (with or
    without choosing the JSON data format in between) gives a draft with
    framing newline and maxLineLength null, format json with both flags
    false, empty fields and the definition json_schema with empty text. *)
Theorem newline_then_json_schema
    (connector : Connector.t) (connectionProfiles : list ConnectionProfile.t)
    (ui : UI) :
  ∃ ui',
    DefineSchema.onFramingChange "Newline" ui = Some ui' ∧
    let expected :=
      val {| format := val (json {| unstructured := val false;
                                    confluentSchemaRegistry := val false |});
             framing := val {| method := newline {| maxLineLength := null |} |};
             fields := val [];
             definition := val (json_schema "");
             schema_other := schema_other (draftSchema ui) |} in
    schema (state (JsonEditor.onChange connector connectionProfiles "json" ui'))
      = expected ∧
    schema (state (JsonEditor.onChange connector connectionProfiles "json"
                     (DefineSchema.onFormatChange "json" ui')))
      = expected.
Proof. eexists. by repeat split. Qed.

(** C3 as stated fails: no entry of the framing select has a line limit of
    128, and the draft reached by Newline, JSON, JSON Schema has a framing
    other than newline with maxLineLength 128. *)
Lemma newline_framing_has_no_line_limit :
  Forall (λ f, FramingOption.value f ≠ val Session.newline128)
    DefineSchema.framingMethods ∧
  ∃ ui',
    DefineSchema.run Session.kafka Session.loaded Session.opened
      [DefineSchema.FramingChange "Newline"; DefineSchema.FormatChange "json";
       DefineSchema.SchemaTypeChange "json"] = Some ui' ∧
    framing (draftSchema ui')
      = val {| method := newline {| maxLineLength := null |} |} ∧
    framing (draftSchema ui') ≠ val Session.newline128.
Proof.
  split.
  - unfold DefineSchema.framingMethods. by repeat constructor.
  - eexists. split; [by vm_compute |]. by split.
Qed.

(** ** Sequences of format selections *)

Lemma select_resets (connector : Connector.t)
    (connectionProfiles : list ConnectionProfile.t) (sel : Selection) (ui : UI) :
  ∃ s,
    schema (state (select connector connectionProfiles sel ui)) = val s ∧
    fields s = val [] ∧
    framing s = framing (draftSchema ui) ∧
    match sel with
    | SelectSchemaType t =>
        format s = val (schemaTypeFormat t) ∧
        definition s = canonicalDefinition (schemaTypeFormat t)
    | SelectDataFormat v =>
        format s = val (if loose_eq v "json"
                        then json {| unstructured := undefined;
                                     confluentSchemaRegistry := val false |}
                        else raw_string) ∧
        definition s = definition (draftSchema ui)
    end.
Proof.
  destruct sel as [v | t]; simpl.
  - unfold DefineSchema.onFormatChange.
    destruct (loose_eq v "json"); eexists; by repeat split.
  - destruct t; eexists; by repeat split.
Qed.

(** C1, as the code has it: along every sequence of selections in the two
    format selects, after each selection the schema fields are empty, so a
    field list of an earlier branch never survives; after a schema-type
    selection (JSON Schema, Unstructured JSON, Confluent) the format is the
    one selected and the definition is its canonical shape (json_schema with
    empty text, raw_schema value, null); after a data-format selection (JSON
    or Raw String) the format is the one selected and the definition is the
    one the draft had before the selection. *)
Theorem selections_reset_fields
    (connector : Connector.t) (connectionProfiles : list ConnectionProfile.t)
    (sels : list Selection) (sel : Selection) (ui : UI) :
  let before := selectAll connector connectionProfiles sels ui in
  let after := selectAll connector connectionProfiles (sels ++ [sel]) ui in
  ∃ s,
    schema (state after) = val s ∧
    fields s = val [] ∧
    match sel with
    | SelectSchemaType t =>
        format s = val (schemaTypeFormat t) ∧
        definition s = canonicalDefinition (schemaTypeFormat t)
    | SelectDataFormat v =>
        format s = val (if loose_eq v "json"
                        then json {| unstructured := undefined;
                                     confluentSchemaRegistry := val false |}
                        else raw_string) ∧
        definition s = definition (draftSchema before)
    end.
Proof.
  cbv zeta. unfold selectAll. rewrite fold_left_app. simpl.
  destruct (select_resets connector connectionProfiles sel
              (fold_left (λ u sel0, select connector connectionProfiles sel0 u) sels ui))
    as (s & Hs & Hfields & _ & Hsel).
  by exists s.
Qed.

(** C1 as stated fails: from the step as it opens, choosing JSON, then JSON
    Schema, then Raw String leaves a raw-string draft with empty fields that
    still carries the JSON-schema definition, not the raw-string one. *)
Lemma raw_string_selection_keeps_definition :
  ∃ ui',
    DefineSchema.run Session.kafka Session.loaded Session.opened
      [DefineSchema.FormatChange "json"; DefineSchema.SchemaTypeChange "json";
       DefineSchema.FormatChange "raw_string"] = Some ui' ∧
    format (draftSchema ui') = val raw_string ∧
    fields (draftSchema ui') = val [] ∧
    definition (draftSchema ui') = val (json_schema "") ∧
    definition (draftSchema ui') ≠ canonicalDefinition raw_string.
Proof. eexists. split; [by vm_compute |]. by repeat split. Qed.

(** ** While the profiles load *)

(** C9: while the connection profiles are loading the step renders the
    empty fragment: it offers no data format, no framing and no schema
    type, and no user action, the Confluent selection included, goes
    through. *)
Theorem loading_offers_nothing
    (connector : Connector.t) (profiles : DefineSchema.Profiles) (ui : UI) :
  DefineSchema.connectionProfilesLoading profiles = true →
  let r := DefineSchema.render connector profiles ui in
  r = DefineSchema.Fragment ∧
  DefineSchema.offeredFormats r = [] ∧
  DefineSchema.offeredFramings r = [] ∧
  DefineSchema.offeredSchemaTypes r = [] ∧
  (∀ ev, DefineSchema.enabled r ev = false) ∧
  (∀ ev, DefineSchema.step connector profiles ui ev = None) ∧
  (∀ ev evs, DefineSchema.run connector profiles ui (ev :: evs) = None).
Proof.
  intros Hloading. cbv zeta.
  assert (DefineSchema.render connector profiles ui = DefineSchema.Fragment) as Hr.
  { unfold DefineSchema.render. by rewrite Hloading. }
  assert (∀ ev, DefineSchema.enabled DefineSchema.Fragment ev = false) as Hen.
  { by intros []. }
  assert (∀ ev, DefineSchema.step connector profiles ui ev = None) as Hstep.
  { intros ev. unfold DefineSchema.step. by rewrite Hr, Hen. }
  rewrite Hr. repeat split; try done.
  intros ev evs. simpl. by rewrite Hstep.
Qed.

Lemma loading_offers_nothing_witness :
  DefineSchema.connectionProfilesLoading Session.loading = true ∧
  DefineSchema.offeredFormats
    (DefineSchema.render Session.kafka Session.loading Session.explored) = [] ∧
  DefineSchema.step Session.kafka Session.loading Session.explored
    (DefineSchema.SchemaTypeChange "confluent") = None.
Proof.
  split; [reflexivity |].
  destruct (loading_offers_nothing Session.kafka Session.loading Session.explored
              eq_refl) as (_ & Hformats & _ & _ & _ & Hstep & _).
  split; [exact Hformats | exact (Hstep _)].
Defined.

(** Once the profiles are there the same step offers its options: the two
    enabled data formats, both framings, and under JSON the three schema
    types of a kafka profile with a registry. *)
Example loaded_offers_options :
  let r := DefineSchema.render Session.kafka Session.loaded Session.explored in
  DefineSchema.offeredFormats r = ["json"; "raw_string"] ∧
  DefineSchema.offeredFramings r = ["None"; "Newline"] ∧
  DefineSchema.offeredSchemaTypes r = ["json"; "unstructured"; "confluent"].
Proof. by vm_compute. Qed.

(** The raw-string branch run to its end from the opened step. *)
Example raw_string_branch :
  (λ ui, (schema (state ui), nexts ui)) <$>
    DefineSchema.run Session.kafka Session.loaded Session.opened
      [DefineSchema.FormatChange "raw_string"; DefineSchema.Continue]
  = Some (val {| format := val raw_string;
                 framing := undefined;
                 fields := val [ {| fieldName := "value";
                                    fieldType := {| type := primitive "string" |};
                                    nullable := true |} ];
                 definition := val (raw_schema "value");
                 schema_other := ∅ |}, 1).
Proof. by vm_compute. Qed.

(** A disabled format, or a schema type before JSON is chosen, cannot be
    picked. *)
Example not_offered_not_reachable :
  DefineSchema.step Session.kafka Session.loaded Session.opened
    (DefineSchema.FormatChange "avro") = None ∧
  DefineSchema.step Session.kafka Session.loaded Session.opened
    (DefineSchema.SchemaTypeChange "json") = None.
Proof. by vm_compute. Qed.


(** ** Further properties of the catalog *)

(** X1: the property keys of the catalog are pairwise distinct, and the key
    of every operation is its name with the first letter in lower case. *)
Theorem catalog_keys_follow_names :
  NoDup (fst <$> ApiGrpc.methods) ∧
  Forall (λ e, fst e = lowerFirst (ApiGrpc.name (snd e))) ApiGrpc.methods.
Proof.
  split.
  - apply (bool_decide_unpack _). by vm_compute.
  - unfold ApiGrpc.methods. repeat (constructor; [by vm_compute |]). constructor.
Qed.

(** ** Further properties of the schema-type select *)

Lemma connectionProfile_found (connectionProfiles : list ConnectionProfile.t)
    (state : CreateConnectionState) pid p :
  connectionProfileId state = val pid →
  foundProfile pid connectionProfiles p →
  JsonEditor.connectionProfile connectionProfiles state = Some p.
Proof.
  intros Hid Hfound. unfold JsonEditor.connectionProfile. rewrite Hid.
  by apply find_by_id_found.
Qed.

(** X2: the schema types on offer depend on the profile list only through
    the first profile that carries the id of the draft: the list can be
    replaced by that one profile. *)
Theorem options_depend_on_first_match
    (connector : Connector.t) (connectionProfiles : list ConnectionProfile.t)
    (state : CreateConnectionState) (pid : string) (p : ConnectionProfile.t) :
  connectionProfileId state = val pid →
  foundProfile pid connectionProfiles p →
  JsonEditor.schemaTypeOptions connector connectionProfiles state
  = JsonEditor.schemaTypeOptions connector [p] state.
Proof.
  intros Hid Hfound.
  assert (foundProfile pid [p] p) as Hsingle.
  { destruct Hfound as (_ & _ & _ & Hp & _). by exists [], []. }
  unfold JsonEditor.schemaTypeOptions, JsonEditor.registryAvailable.
  rewrite (connectionProfile_found connectionProfiles state pid p Hid Hfound).
  by rewrite (connectionProfile_found [p] state pid p Hid Hsingle).
Qed.

Lemma options_depend_on_first_match_witness :
  connectionProfileId (state Session.opened) = val "p1" ∧
  foundProfile "p1" [Session.withRegistry; Session.plain] Session.withRegistry ∧
  JsonEditor.schemaTypeOptions Session.kafka [Session.withRegistry; Session.plain]
    (state Session.opened)
  = JsonEditor.schemaTypeOptions Session.kafka [Session.withRegistry]
      (state Session.opened).
Proof.
  assert (foundProfile "p1" [Session.withRegistry; Session.plain]
            Session.withRegistry) as Hfound.
  { exists [], [Session.plain]. by repeat split. }
  split; [reflexivity |]. split; [exact Hfound |].
  exact (options_depend_on_first_match Session.kafka
           [Session.withRegistry; Session.plain] (state Session.opened)
           "p1" Session.withRegistry eq_refl Hfound).
Defined.

Lemma onChange_selected (connector : Connector.t)
    (connectionProfiles : list ConnectionProfile.t) (v : string) (ui : UI) :
  selectedSchemaType (JsonEditor.onChange connector connectionProfiles v ui)
  = List.find (λ o, loose_eq (SchemaTypeOption.value o) v)
      (JsonEditor.schemaTypeOptions connector connectionProfiles (state ui)).
Proof.
  unfold JsonEditor.onChange.
  destruct (strict_eq v "json"); [done |].
  destruct (strict_eq v "confluent"); [done |].
  by destruct (strict_eq v "unstructured").
Qed.

Lemma options_cases (connector : Connector.t)
    (connectionProfiles : list ConnectionProfile.t) (state : CreateConnectionState) :
  JsonEditor.schemaTypeOptions connector connectionProfiles state
    = [JsonEditor.json_option; JsonEditor.unstructured_option] ∨
  JsonEditor.schemaTypeOptions connector connectionProfiles state
    = [JsonEditor.json_option; JsonEditor.unstructured_option;
       JsonEditor.confluent_option].
Proof.
  unfold JsonEditor.schemaTypeOptions.
  destruct (JsonEditor.registryAvailable _ _ _); [by right | by left].
Qed.

(** The first element found under a key is the element of the list with
    that key, when the keys of the list are pairwise distinct. *)
Lemma find_by_value (v : string) (l : list SchemaTypeOption.t) o :
  NoDup (SchemaTypeOption.value <$> l) →
  List.find (λ o, loose_eq (SchemaTypeOption.value o) v) l = Some o
  ↔ o ∈ l ∧ SchemaTypeOption.value o = v.
Proof.
  induction l as [| x l IH]; simpl; intros Hnd.
  - split; [done |]. intros [Hin _]. by apply elem_of_nil in Hin.
  - apply NoDup_cons in Hnd as [Hx Hnd].
    destruct (loose_eq (SchemaTypeOption.value x) v) eqn:Hxv.
    + apply loose_eq_true in Hxv. split.
      * intros [= ->]. split; [apply elem_of_cons; by left | done].
      * intros [Hin Hv]. apply elem_of_cons in Hin as [-> | Hin]; [done |].
        exfalso. apply Hx. apply list_elem_of_fmap. exists o.
        split; [congruence | done].
    + rewrite (IH Hnd). split.
      * intros [Hin Hv]. split; [apply elem_of_cons; by right | done].
      * intros [Hin Hv]. apply elem_of_cons in Hin as [-> | Hin]; [| done].
        apply loose_eq_true in Hv. congruence.
Qed.

(** X3: in every profile context the values of the schema types on offer
    are pairwise distinct, and the handler of the select records as
    selected exactly the offered option that carries the value it was sent;
    a value that is not on offer leaves nothing selected. *)
Theorem schema_type_select_records_offered_option
    (connector : Connector.t) (connectionProfiles : list ConnectionProfile.t)
    (v : string) (ui : UI) :
  let offered :=
    JsonEditor.schemaTypeOptions connector connectionProfiles (state ui) in
  let ui' := JsonEditor.onChange connector connectionProfiles v ui in
  NoDup (SchemaTypeOption.value <$> offered) ∧
  (∀ o, selectedSchemaType ui' = Some o ↔ o ∈ offered ∧ SchemaTypeOption.value o = v) ∧
  (v ∉ SchemaTypeOption.value <$> offered → selectedSchemaType ui' = None).
Proof.
  cbv zeta.
  assert (NoDup (SchemaTypeOption.value <$>
            JsonEditor.schemaTypeOptions connector connectionProfiles (state ui)))
    as Hnd.
  { destruct (options_cases connector connectionProfiles (state ui)) as [-> | ->];
      apply (bool_decide_unpack _); by vm_compute. }
  split; [done |]. rewrite onChange_selected. split.
  - intros o. by apply find_by_value.
  - intros Hnot.
    destruct (List.find _ _) as [o |] eqn:Hfind; [| done].
    apply find_by_value in Hfind as [Hin Hv]; [| done].
    exfalso. apply Hnot. apply list_elem_of_fmap. by exists o.
Qed.

(** X4: a value that is none of json, confluent and unstructured (the empty
    value of the placeholder entry, say) leaves the draft as it is, selects
    no schema type and shows no editor. *)
Theorem unknown_schema_type_keeps_draft
    (connector : Connector.t) (connectionProfiles : list ConnectionProfile.t)
    (v : string) (ui : UI) :
  v ∉ ["json"; "confluent"; "unstructured"] →
  let ui' := JsonEditor.onChange connector connectionProfiles v ui in
  state ui' = state ui ∧
  selectedSchemaType ui' = None ∧
  JsonEditor.editor ui' = None ∧
  selectedFormat ui' = selectedFormat ui ∧
  selectedFraming ui' = selectedFraming ui ∧
  nexts ui' = nexts ui.
Proof.
  intros Hv. cbv zeta.
  assert (v ≠ "json" ∧ v ≠ "confluent" ∧ v ≠ "unstructured") as (Hj & Hc & Hu).
  { repeat split; intros ->; apply Hv; set_solver. }
  assert (selectedSchemaType
            (JsonEditor.onChange connector connectionProfiles v ui) = None) as Hsel.
  { rewrite onChange_selected.
    destruct (options_cases connector connectionProfiles (state ui)) as [-> | ->];
      simpl; unfold loose_eq; repeat case_bool_decide; simplify_eq/=; done. }
  split; [| split; [done | split]].
  - unfold JsonEditor.onChange, strict_eq.
    by rewrite !bool_decide_eq_false_2.
  - unfold JsonEditor.editor. by rewrite Hsel.
  - unfold JsonEditor.onChange, strict_eq.
    by rewrite !bool_decide_eq_false_2.
Qed.

Lemma unknown_schema_type_keeps_draft_witness :
  ("" ∉ ["json"; "confluent"; "unstructured"]) ∧
  state (JsonEditor.onChange Session.kafka [Session.withRegistry] "" Session.explored)
    = state Session.explored ∧
  selectedSchemaType
    (JsonEditor.onChange Session.kafka [Session.withRegistry] "" Session.explored)
    = None.
Proof.
  assert ("" ∉ ["json"; "confluent"; "unstructured"]) as Hv.
  { apply (bool_decide_unpack _). by vm_compute. }
  split; [exact Hv |].
  destruct (unknown_schema_type_keeps_draft Session.kafka [Session.withRegistry]
              "" Session.explored Hv) as (Hstate & Hsel & _).
  by split.
Defined.

(** ** Earlier selections and the handlers that complete a branch *)

Lemma select_keeps (connector : Connector.t)
    (connectionProfiles : list ConnectionProfile.t) (sel : Selection) (ui : UI) :
  let ui' := select connector connectionProfiles sel ui in
  framing (draftSchema ui') = framing (draftSchema ui) ∧
  schema_other (draftSchema ui') = schema_other (draftSchema ui) ∧
  connectionProfileId (state ui') = connectionProfileId (state ui) ∧
  state_other (state ui') = state_other (state ui).
Proof.
  destruct sel as [v | t]; simpl.
  - unfold DefineSchema.onFormatChange. by destruct (loose_eq v "json").
  - by destruct t.
Qed.

Lemma selectAll_keeps (connector : Connector.t)
    (connectionProfiles : list ConnectionProfile.t) (sels : list Selection) (ui : UI) :
  let ui' := selectAll connector connectionProfiles sels ui in
  framing (draftSchema ui') = framing (draftSchema ui) ∧
  schema_other (draftSchema ui') = schema_other (draftSchema ui) ∧
  connectionProfileId (state ui') = connectionProfileId (state ui) ∧
  state_other (state ui') = state_other (state ui).
Proof.
  cbv zeta. revert ui. induction sels as [| sel sels IH]; intros ui; [done |].
  unfold selectAll in *. simpl.
  destruct (IH (select connector connectionProfiles sel ui)) as (-> & -> & -> & ->).
  apply select_keeps.
Qed.

(** X5: a schema-type selection and the raw-string Continue forget every
    format selection made before them: after any sequence of selections in
    the two format selects they write the same draft as on the draft the
    sequence started from. *)
Theorem completing_handlers_forget_selections
    (connector : Connector.t) (connectionProfiles : list ConnectionProfile.t)
    (sels : list Selection) (t : SchemaType) (ui : UI) :
  let ui' := selectAll connector connectionProfiles sels ui in
  state (JsonEditor.onChange connector connectionProfiles (schemaTypeValue t) ui')
    = state (JsonEditor.onChange connector connectionProfiles (schemaTypeValue t) ui) ∧
  state (RawStringEditor.submit ui') = state (RawStringEditor.submit ui).
Proof.
  cbv zeta.
  destruct (selectAll_keeps connector connectionProfiles sels ui)
    as (Hframing & Hother & Hid & Hrest).
  unfold draftSchema in *. split.
  - destruct t; simpl; unfold with_schema;
      by rewrite Hframing, Hother, Hid, Hrest.
  - simpl. unfold with_schema. by rewrite Hframing, Hother, Hid, Hrest.
Qed.

(** ** Further properties of the two selects of [DefineSchema] *)

(** X6: the format handler knows one value only: whatever it is sent that is
    not json (a disabled format, the empty value of the placeholder entry)
    is handled as raw_string, selection and draft alike. *)
Theorem format_change_other_is_raw_string (v : string) (ui : UI) :
  v ≠ "json" →
  DefineSchema.onFormatChange v ui = DefineSchema.onFormatChange "raw_string" ui ∧
  selectedFormat (DefineSchema.onFormatChange v ui) = Some "raw_string" ∧
  format (draftSchema (DefineSchema.onFormatChange v ui)) = val raw_string.
Proof.
  intros Hv. unfold DefineSchema.onFormatChange, loose_eq.
  by rewrite bool_decide_eq_false_2.
Qed.

Lemma format_change_other_is_raw_string_witness :
  "avro" ≠ "json" ∧
  DefineSchema.onFormatChange "avro" Session.explored
    = DefineSchema.onFormatChange "raw_string" Session.explored ∧
  selectedFormat (DefineSchema.onFormatChange "avro" Session.explored)
    = Some "raw_string" ∧
  format (draftSchema (DefineSchema.onFormatChange "avro" Session.explored))
    = val raw_string.
Proof.
  assert ("avro" ≠ "json") as Hv by discriminate.
  split; [exact Hv |].
  exact (format_change_other_is_raw_string "avro" Session.explored Hv).
Defined.

(** X7: of two format changes in a row the second one decides: the wizard
    is as if the first had not happened. *)
Theorem format_change_last_wins (v1 v2 : string) (ui : UI) :
  DefineSchema.onFormatChange v2 (DefineSchema.onFormatChange v1 ui)
  = DefineSchema.onFormatChange v2 ui.
Proof.
  unfold DefineSchema.onFormatChange.
  by destruct (loose_eq v1 "json"), (loose_eq v2 "json").
Qed.

Lemma framing_find_cases (v : string) :
  (v = "None" ∧
   List.find (λ f, loose_eq (FramingOption.name f) v) DefineSchema.framingMethods
   = Some {| FramingOption.name := "None"; FramingOption.value := undefined |}) ∨
  (v = "Newline" ∧
   List.find (λ f, loose_eq (FramingOption.name f) v) DefineSchema.framingMethods
   = Some Session.newlineOption) ∨
  ((v ∉ ["None"; "Newline"]) ∧
   List.find (λ f, loose_eq (FramingOption.name f) v) DefineSchema.framingMethods
   = None).
Proof.
  unfold DefineSchema.framingMethods, loose_eq. simpl.
  repeat case_bool_decide; subst.
  - by left.
  - right; by left.
  - right; right. split; [| done].
    intros Hin. apply elem_of_cons in Hin as [-> | Hin]; [done |].
    apply elem_of_cons in Hin as [-> | Hin]; [done |].
    by apply elem_of_nil in Hin.
Qed.

(** X8: the framing handler throws exactly on a value that is not the name
    of a framing option; on None and on Newline it returns, and records the
    value as the selected framing. *)
Theorem framing_change_throws_iff_unknown (v : string) (ui : UI) :
  (DefineSchema.onFramingChange v ui = None ↔ v ∉ ["None"; "Newline"]) ∧
  (∀ ui', DefineSchema.onFramingChange v ui = Some ui' →
          selectedFraming ui' = Some v).
Proof.
  unfold DefineSchema.onFramingChange.
  destruct (framing_find_cases v) as [[-> ->] | [[-> ->] | [Hv ->]]].
  - split; [| by intros ui' [= <-]].
    split; [done |]. intros Hnot. exfalso. apply Hnot. set_solver.
  - split; [| by intros ui' [= <-]].
    split; [done |]. intros Hnot. exfalso. apply Hnot. set_solver.
  - split; [done | done].
Qed.

(** X9: of two framing changes in a row the second one decides: the wizard
    is as if the first had not happened. *)
Theorem framing_change_last_wins (v1 v2 : string) (ui ui1 : UI) :
  DefineSchema.onFramingChange v1 ui = Some ui1 →
  DefineSchema.onFramingChange v2 ui1 = DefineSchema.onFramingChange v2 ui.
Proof.
  unfold DefineSchema.onFramingChange.
  destruct (List.find _ _) as [f1 |]; [| done]. intros [= <-].
  by destruct (List.find _ _) as [f2 |].
Qed.

Lemma framing_change_last_wins_witness :
  ∃ ui1,
    DefineSchema.onFramingChange "Newline" Session.explored = Some ui1 ∧
    DefineSchema.onFramingChange "None" ui1
    = DefineSchema.onFramingChange "None" Session.explored.
Proof.
  eexists. split; [reflexivity |].
  exact (framing_change_last_wins "Newline" "None" Session.explored _ eq_refl).
Defined.

(** X10: the framing select and the two format selects do not interfere: a
    framing change after a data-format change or after a schema-type
    selection gives the same wizard as the other order. *)
Theorem framing_commutes_with_format
    (connector : Connector.t) (connectionProfiles : list ConnectionProfile.t)
    (vframing v : string) (ui : UI) :
  DefineSchema.onFramingChange vframing (DefineSchema.onFormatChange v ui)
    = DefineSchema.onFormatChange v <$> DefineSchema.onFramingChange vframing ui ∧
  DefineSchema.onFramingChange vframing
      (JsonEditor.onChange connector connectionProfiles v ui)
    = JsonEditor.onChange connector connectionProfiles v
        <$> DefineSchema.onFramingChange vframing ui.
Proof.
  unfold DefineSchema.onFramingChange.
  destruct (List.find _ _) as [f |]; [| done]. split.
  - unfold DefineSchema.onFormatChange. by destruct (loose_eq v "json").
  - unfold JsonEditor.onChange. simpl.
    destruct (strict_eq v "json"); [done |].
    destruct (strict_eq v "confluent"); [done |].
    by destruct (strict_eq v "unstructured").
Qed.

(** ** What the rendered step shows *)

Lemma render_shown_cases (connector : Connector.t)
    (profiles : DefineSchema.Profiles) (ui : UI) :
  let r := DefineSchema.render connector profiles ui in
  DefineSchema.connectionProfilesLoading profiles = false →
  (selectedFormat ui = Some "json" ∧
   ((r = DefineSchema.Crashed ∧
     not_nullish (DefineSchema.connectionProfiles profiles) = false ∧
     not_nullish (connectionProfileId (state ui)) = true) ∨
    (r = DefineSchema.Form DefineSchema.framingMethods DefineSchema.formats
           (Some (DefineSchema.JsonEditorView
                    (JsonEditor.render connector
                       (DefineSchema.profileList profiles) ui))) ∧
     (not_nullish (DefineSchema.connectionProfiles profiles) = true ∨
      not_nullish (connectionProfileId (state ui)) = false)))) ∨
  (selectedFormat ui = Some "raw_string" ∧
   r = DefineSchema.Form DefineSchema.framingMethods DefineSchema.formats
         (Some DefineSchema.RawStringEditorView)) ∨
  (selectedFormat ui ≠ Some "json" ∧ selectedFormat ui ≠ Some "raw_string" ∧
   r = DefineSchema.Form DefineSchema.framingMethods DefineSchema.formats None).
Proof.
  cbv zeta. intros Hloading.
  unfold DefineSchema.render, DefineSchema.profileList. rewrite Hloading.
  destruct (selectedFormat ui) as [sel |]; [| by right; right].
  unfold DefineSchema.formats, strict_eq. simpl.
  repeat case_bool_decide; subst; simpl.
  - left. split; [done |].
    destruct (DefineSchema.connectionProfiles profiles) as [| | ps]; simpl.
    + destruct (not_nullish (connectionProfileId (state ui)));
        [left | right]; split; auto.
    + destruct (not_nullish (connectionProfileId (state ui)));
        [left | right]; split; auto.
    + right. split; auto.
  - right; left. by split.
  - right; right. repeat split; congruence.
  - right; right. repeat split; congruence.
  - right; right. repeat split; congruence.
Qed.

(** X11: when the hook reports that it is no longer loading but hands back
    no profile list, the step throws while rendering exactly if JSON is the
    selected format and the draft names a connection profile; with a profile
    list, or while loading, rendering never throws. *)
Theorem render_throws_iff
    (connector : Connector.t) (profiles : DefineSchema.Profiles) (ui : UI) :
  DefineSchema.render connector profiles ui = DefineSchema.Crashed
  ↔ DefineSchema.connectionProfilesLoading profiles = false ∧
    selectedFormat ui = Some "json" ∧
    not_nullish (DefineSchema.connectionProfiles profiles) = false ∧
    not_nullish (connectionProfileId (state ui)) = true.
Proof.
  destruct (DefineSchema.connectionProfilesLoading profiles) eqn:Hloading.
  - unfold DefineSchema.render. rewrite Hloading. split; [done |].
    by intros [? _].
  - destruct (render_shown_cases connector profiles ui Hloading)
      as [[Hsel [(-> & Hps & Hid) | (-> & Hok)]] | [[Hsel ->] | (Hj & Hr & ->)]].
    + done.
    + split; [done |]. intros (_ & _ & Hps & Hid).
      destruct Hok; congruence.
    + split; [done |]. intros (_ & Hj & _). congruence.
    + split; [done |]. intros (_ & Hsel & _). congruence.
Qed.

(** ** User actions on the rendered step *)

Lemma mem_true (v : string) (l : list string) :
  DefineSchema.mem v l = true ↔ v ∈ l.
Proof. unfold DefineSchema.mem. apply bool_decide_eq_true. Qed.

Lemma render_loading (connector : Connector.t)
    (profiles : DefineSchema.Profiles) (ui : UI) :
  DefineSchema.connectionProfilesLoading profiles = true →
  DefineSchema.render connector profiles ui = DefineSchema.Fragment.
Proof. intros Hloading. unfold DefineSchema.render. by rewrite Hloading. Qed.

(** Whatever is rendered with something to offer is the form with the two
    tables of the component. *)
Lemma render_form_tables (connector : Connector.t)
    (profiles : DefineSchema.Profiles) (ui : UI) fs fo el :
  DefineSchema.render connector profiles ui = DefineSchema.Form fs fo el →
  fs = DefineSchema.framingMethods ∧ fo = DefineSchema.formats.
Proof.
  destruct (DefineSchema.connectionProfilesLoading profiles) eqn:Hloading.
  - by rewrite render_loading.
  - destruct (render_shown_cases connector profiles ui Hloading)
      as [[_ [(-> & _) | (-> & _)]] | [[_ ->] | (_ & _ & ->)]];
      [done | | |]; by intros [= <- <- _].
Qed.


Lemma handle_continue (connector : Connector.t)
    (profiles : DefineSchema.Profiles) (ui : UI) :
  DefineSchema.handle connector profiles DefineSchema.Continue ui = Some (next ui) ∨
  DefineSchema.handle connector profiles DefineSchema.Continue ui
    = Some (RawStringEditor.submit ui).
Proof. unfold DefineSchema.handle. repeat case_match; auto. Qed.

(** X12: no control of the rendered step throws: a user action fails to go
    through only when the step does not offer it; in particular every
    framing the select offers is known to the framing handler. *)
Theorem offered_actions_never_throw
    (connector : Connector.t) (profiles : DefineSchema.Profiles)
    (ui : UI) (ev : DefineSchema.Event) :
  DefineSchema.step connector profiles ui ev = None
  ↔ DefineSchema.enabled (DefineSchema.render connector profiles ui) ev = false.
Proof.
  unfold DefineSchema.step.
  destruct (DefineSchema.enabled _ ev) eqn:Hen; [| done].
  split; [| done]. intros Hnone. exfalso.
  destruct ev as [v | v | v |].
  - simpl in Hen. apply mem_true in Hen.
    destruct (DefineSchema.render connector profiles ui) as [| fs fo el |] eqn:Hr;
      try by apply elem_of_nil in Hen.
    apply render_form_tables in Hr as [-> _]. simpl in *.
    unfold DefineSchema.onFramingChange in Hnone.
    destruct (framing_find_cases v) as [[_ Hf] | [[_ Hf] | [Hv _]]];
      [by rewrite Hf in Hnone | by rewrite Hf in Hnone | done].
  - done.
  - done.
  - by destruct (handle_continue connector profiles ui) as [H | H];
      rewrite H in Hnone.
Qed.



Lemma confluent_offered_iff_available (connector : Connector.t)
    (connectionProfiles : list ConnectionProfile.t) (state : CreateConnectionState) :
  "confluent" ∈ SchemaTypeOption.value <$>
      JsonEditor.schemaTypeOptions connector connectionProfiles state
  ↔ JsonEditor.registryAvailable connector connectionProfiles state = true.
Proof.
  unfold JsonEditor.schemaTypeOptions.
  destruct (JsonEditor.registryAvailable _ _ _); simpl.
  - split; [done |]. intros _. set_solver.
  - split; [| done]. intros Hin.
    apply elem_of_cons in Hin as [Heq | Hin]; [discriminate |].
    apply elem_of_cons in Hin as [Heq | Hin]; [discriminate |].
    by apply elem_of_nil in Hin.
Qed.

(** X14: with the profile list loaded, the Confluent selection goes through
    exactly when JSON is the selected format, the connector is kafka, and
    the profile the draft names is found with a non-null schemaRegistry. *)
Theorem confluent_step_iff_capable
    (connector : Connector.t) (connectionProfiles : list ConnectionProfile.t)
    (ui : UI) :
  let profiles :=
    {| DefineSchema.connectionProfiles := val connectionProfiles;
       DefineSchema.connectionProfilesLoading := false |} in
  is_Some (DefineSchema.step connector profiles ui
             (DefineSchema.SchemaTypeChange "confluent"))
  ↔ selectedFormat ui = Some "json" ∧
    registryCapable connector connectionProfiles (state ui).
Proof.
  cbv zeta. rewrite <- registryAvailable_capable, <- confluent_offered_iff_available.
  set (profiles := {| DefineSchema.connectionProfiles := val connectionProfiles;
                      DefineSchema.connectionProfilesLoading := false |}).
  unfold DefineSchema.step.
  destruct (render_shown_cases connector profiles ui eq_refl)
    as [[Hsel [(_ & Hps & _) | (Hr & _)]] | [[Hsel Hr] | (Hj & _ & Hr)]].
  - done.
  - rewrite Hr. simpl. unfold DefineSchema.mem. case_bool_decide as Hin.
    + split; [done |]. intros _. by eexists.
    + split; [by intros [? ?] |]. by intros [_ ?].
  - rewrite Hr. simpl. split; [by intros [? ?] |]. intros [? _]. congruence.
  - rewrite Hr. simpl. split; [by intros [? ?] |]. intros [? _]. congruence.
Qed.



(** X16: leaving JSON for raw string and coming back starts the JSON branch
    afresh: no schema type is selected any more, the earlier definition is
    still in the draft, and Continue is not available until a schema type is
    selected again. *)
Theorem back_to_json_needs_schema_type
    (connector : Connector.t) (profiles : DefineSchema.Profiles)
    (ui ui1 ui2 : UI) :
  DefineSchema.step connector profiles ui
    (DefineSchema.FormatChange "raw_string") = Some ui1 →
  DefineSchema.step connector profiles ui1
    (DefineSchema.FormatChange "json") = Some ui2 →
  selectedSchemaType ui2 = None ∧
  definition (draftSchema ui2) = definition (draftSchema ui) ∧
  DefineSchema.enabled (DefineSchema.render connector profiles ui2)
    DefineSchema.Continue = false ∧
  DefineSchema.step connector profiles ui2 DefineSchema.Continue = None.
Proof.
  unfold DefineSchema.step at 1 2.
  destruct (DefineSchema.enabled _ _); [| done]. intros [= <-].
  destruct (DefineSchema.enabled _ _) eqn:Hen; [| done]. intros [= <-].
  assert (DefineSchema.connectionProfilesLoading profiles = false) as Hloading.
  { destruct (DefineSchema.connectionProfilesLoading profiles) eqn:Hl; [| done].
    by rewrite render_loading in Hen. }
  split; [done |]. split; [done |].
  match goal with |- ?P ∧ _ => assert P as Hno end.
  { match goal with |- DefineSchema.enabled (DefineSchema.render _ _ ?u) _ = _ =>
      destruct (render_shown_cases connector profiles u Hloading)
        as [[_ [(-> & _) | (-> & _)]] | [[Hsel _] | (Hj & _)]]
    end; try done. }
  split; [done |]. unfold DefineSchema.step. by rewrite Hno.
Qed.

Lemma back_to_json_needs_schema_type_witness :
  ∃ ui1 ui2,
    DefineSchema.step Session.kafka Session.loaded Session.explored
      (DefineSchema.FormatChange "raw_string") = Some ui1 ∧
    DefineSchema.step Session.kafka Session.loaded ui1
      (DefineSchema.FormatChange "json") = Some ui2 ∧
    selectedSchemaType ui2 = None ∧
    DefineSchema.step Session.kafka Session.loaded ui2 DefineSchema.Continue = None.
Proof.
  eexists _, _. split; [reflexivity |]. split; [reflexivity |].
  destruct (back_to_json_needs_schema_type Session.kafka Session.loaded
              Session.explored _ _ eq_refl eq_refl) as (Hsel & _ & _ & Hstep).
  by split.
Defined.

(** ** Along a sequence of user actions *)












(** ** What Continue hands on *)






(** ** The draft and the selected schema type *)











(** The condition is needed: were the format select to call its handler on
    the format that is selected already, the format of the draft would lose
    its unstructured flag while Continue stays on screen. *)
Example reselecting_json_breaks_consistency :
  ∃ ui',
    DefineSchema.run Session.kafka Session.loaded Session.opened
      [DefineSchema.FormatChange "json";
       DefineSchema.SchemaTypeChange "unstructured";
       DefineSchema.FormatChange "json"; DefineSchema.Continue] = Some ui' ∧
    format (draftSchema ui')
      = val (json {| unstructured := undefined;
                     confluentSchemaRegistry := val false |}) ∧
    definition (draftSchema ui') = val (raw_schema "value").
Proof. eexists. split; [by vm_compute |]. by split. Qed.
